(** * The REG namespace of Triton's Python bindings

    A shallow embedding of
    [src/libtriton/bindings/python/namespaces/initRegNamespace.cpp]:
    the function [initRegNamespace] clears the dictionary it is given and
    fills it with one class object per architecture, each class holding
    one integer attribute per register of that architecture.

    The register lists are X-macro tables ([triton/x86.spec],
    [triton/aarch64.spec], ...) and the identifiers are the enumerators
    [triton::arch::ID_REG_<ARCH>_<NAME>]; both are declared in headers
    outside this translation unit, so they are taken as data ([headers]). *)

From stdpp Require Import base strings gmap list fin_maps.
From Stdlib Require Import ZArith Lia.

Local Open Scope Z_scope.

(** ** Python objects *)

(** The CPython calls and Triton's [x]-wrappers around them are declared
    in the included headers; they are given their CPython meaning on the
    content of the objects. *)

(** The objects this file creates and stores: integers, strings, and
    classes made by [xPyClass_New(bases, dict, name)].  A dictionary is a
    finite map from string keys to objects. *)
#[warnings="-register-all"]
Inductive PyObject : Type :=
  | PyLong (value : Z)
  | PyString (s : string)
  | PyClass (bases : option PyObject) (dict : gmap string PyObject)
            (name : PyObject).

Abbreviation PyDict := (gmap string PyObject).

(** [PyDict_Clear(d)]: empties [d] in place. *)
Definition PyDict_Clear (d : PyDict) : PyDict := ∅.

(** [xPyDict_New()]: a fresh, empty dictionary. *)
Definition xPyDict_New : PyDict := ∅.

(** [xPyDict_SetItemString(d, key, val)]: [d[key] = val], replacing any
    earlier value stored under [key]. *)
Definition xPyDict_SetItemString (d : PyDict) (key : string) (val : PyObject)
  : PyDict := <[key := val]> d.

(** Modelled from the spec: [PyLong_FromUint32], which the included
    [triton/pythonUtils.hpp] declares and another file defines.  The spec
    has each leaf "an integer identifier" and a RegisterId "an unsigned
    integer"; the helper's name and its [triton::uint32] parameter give
    the width: the enumerator passed at the call is converted to 32
    unsigned bits and the Python integer holds that value. *)
Definition PyLong_FromUint32 (value : Z) : PyObject :=
  PyLong (value mod 2 ^ 32).

Definition xPyString_FromString (s : string) : PyObject := PyString s.

Definition xPyClass_New (bases : option PyObject) (dict : PyDict)
  (name : PyObject) : PyObject := PyClass bases dict name.

(** ** The included headers *)

(** The macros a [.spec] file invokes.  The x86 and ARM32 blocks define
    only the first two; the AArch64 and RISC-V blocks also define
    [SYS_REG_SPEC]. *)
Inductive reg_macro : Type := REG_SPEC | REG_SPEC_NO_CAPSTONE.

Inductive macro : Type := Reg (m : reg_macro) | SYS_REG_SPEC.

(** One line of [triton/x86.spec].  Of the nine macro arguments every
    expansion in this file reads [UPPER_NAME] only, and the X86 one also
    the last, [X86_AVAIL]; the seven in between are discarded. *)
Record x86_line : Type := X86Line {
  x86_macro : reg_macro;
  x86_UPPER_NAME : string;
  X86_AVAIL : bool
}.

(** One line of the other [.spec] files: the macro invoked and
    [UPPER_NAME]; the remaining arguments are discarded. *)
Record spec_line (M : Type) : Type := SpecLine {
  line_macro : M;
  UPPER_NAME : string
}.
Arguments SpecLine {M} _ _.
Arguments line_macro {M} _.
Arguments UPPER_NAME {M} _.

(** The enumerator families of [triton::arch::register_e] that the
    expansions paste a register name onto. *)
Inductive id_prefix : Type :=
  | ID_REG_X86 | ID_REG_AARCH64 | ID_REG_ARM32 | ID_REG_RV64 | ID_REG_RV32.

(** What the [#include]d headers provide: the five tables, in declaration
    order, and the value of each enumerator [<prefix>_<NAME>]. *)
Record headers : Type := Headers {
  x86_spec : list x86_line;
  aarch64_spec : list (spec_line macro);
  arm32_spec : list (spec_line reg_macro);
  riscv64_spec : list (spec_line macro);
  riscv32_spec : list (spec_line macro);
  register_e : id_prefix → string → Z
}.

(** [#include "<table>"] under a set of macro definitions [defs]: the
    lines expand one after the other, each to the body of its macro. *)
Definition include {L M : Type} (macro_of : L → M)
  (defs : M → PyDict → L → PyDict) (spec : list L) (d : PyDict) : PyDict :=
  foldl (λ d l, defs (macro_of l) d l) d spec.

(** ** initRegNamespace *)

Section InitRegNamespace.
(** [COMPILE_RISCV] is the preprocessor symbol guarding the last block. *)
Variable COMPILE_RISCV : bool.
Variable h : headers.

(** Lines 85-87: [REG_SPEC] of the X86 block. *)
Definition X86_REG_SPEC (x86RegistersDict : PyDict) (l : x86_line)
  : PyDict :=
  if X86_AVAIL l
  then xPyDict_SetItemString x86RegistersDict (x86_UPPER_NAME l)
         (PyLong_FromUint32 (register_e h ID_REG_X86 (x86_UPPER_NAME l)))
  else x86RegistersDict.

(** Lines 99-100: [REG_SPEC] of the X86_64 block; the ninth argument is
    not used. *)
Definition X86_64_REG_SPEC (x8664RegistersDict : PyDict) (l : x86_line)
  : PyDict :=
  xPyDict_SetItemString x8664RegistersDict (x86_UPPER_NAME l)
    (PyLong_FromUint32 (register_e h ID_REG_X86 (x86_UPPER_NAME l))).

(** Lines 112-113, 126-127, 140-141 and 154-155: [REG_SPEC] of the
    other blocks, which differ in the enumerator prefix only. *)
Definition ARCH_REG_SPEC {M : Type} (prefix : id_prefix)
  (registersDict : PyDict) (l : spec_line M) : PyDict :=
  xPyDict_SetItemString registersDict (UPPER_NAME l)
    (PyLong_FromUint32 (register_e h prefix (UPPER_NAME l))).

(** [#define REG_SPEC_NO_CAPSTONE REG_SPEC] *)
Definition reg_defs {L : Type} (REG_SPEC_body : PyDict → L → PyDict)
  (m : reg_macro) : PyDict → L → PyDict :=
  match m with
  | REG_SPEC => REG_SPEC_body
  | REG_SPEC_NO_CAPSTONE => REG_SPEC_body
  end.

(** [#define REG_SPEC_NO_CAPSTONE REG_SPEC] and
    [#define SYS_REG_SPEC REG_SPEC] *)
Definition sys_defs {L : Type} (REG_SPEC_body : PyDict → L → PyDict)
  (m : macro) : PyDict → L → PyDict :=
  match m with
  | Reg m => reg_defs REG_SPEC_body m
  | SYS_REG_SPEC => REG_SPEC_body
  end.

Definition initRegNamespace (registersDict : PyDict) : PyDict :=
  let registersDict := PyDict_Clear registersDict in
  (* Create X86 REG namespace *)
  let x86RegistersDict := xPyDict_New in
  let x86RegistersDict :=
    include x86_macro (reg_defs X86_REG_SPEC) (x86_spec h)
      x86RegistersDict in
  let x86RegistersDictClass :=
    xPyClass_New None x86RegistersDict (xPyString_FromString "X86") in
  let registersDict :=
    xPyDict_SetItemString registersDict "X86" x86RegistersDictClass in
  (* Create X86_64 REG namespace *)
  let x8664RegistersDict := xPyDict_New in
  let x8664RegistersDict :=
    include x86_macro (reg_defs X86_64_REG_SPEC) (x86_spec h)
      x8664RegistersDict in
  let x8664RegistersDictClass :=
    xPyClass_New None x8664RegistersDict (xPyString_FromString "X86_64") in
  let registersDict :=
    xPyDict_SetItemString registersDict "X86_64" x8664RegistersDictClass in
  (* Create AArch64 REG namespace *)
  let aarch64RegistersDict := xPyDict_New in
  let aarch64RegistersDict :=
    include line_macro (sys_defs (ARCH_REG_SPEC ID_REG_AARCH64))
      (aarch64_spec h) aarch64RegistersDict in
  let aarch64RegistersDictClass :=
    xPyClass_New None aarch64RegistersDict
      (xPyString_FromString "AARCH64") in
  let registersDict :=
    xPyDict_SetItemString registersDict "AARCH64"
      aarch64RegistersDictClass in
  (* Create ARM32 REG namespace *)
  let arm32RegistersDict := xPyDict_New in
  let arm32RegistersDict :=
    include line_macro (reg_defs (ARCH_REG_SPEC ID_REG_ARM32))
      (arm32_spec h) arm32RegistersDict in
  let arm32RegistersDictClass :=
    xPyClass_New None arm32RegistersDict (xPyString_FromString "ARM32") in
  let registersDict :=
    xPyDict_SetItemString registersDict "ARM32" arm32RegistersDictClass in
  if COMPILE_RISCV then
    (* Create RISCV64 REG namespace *)
    let riscv64RegistersDict := xPyDict_New in
    let riscv64RegistersDict :=
      include line_macro (sys_defs (ARCH_REG_SPEC ID_REG_RV64))
        (riscv64_spec h) riscv64RegistersDict in
    let riscv64RegistersDictClass :=
      xPyClass_New None riscv64RegistersDict
        (xPyString_FromString "RV64") in
    let registersDict :=
      xPyDict_SetItemString registersDict "RV64"
        riscv64RegistersDictClass in
    (* Create RISCV32 REG namespace *)
    let riscv32RegistersDict := xPyDict_New in
    let riscv32RegistersDict :=
      include line_macro (sys_defs (ARCH_REG_SPEC ID_REG_RV32))
        (riscv32_spec h) riscv32RegistersDict in
    let riscv32RegistersDictClass :=
      xPyClass_New None riscv32RegistersDict
        (xPyString_FromString "RV32") in
    let registersDict :=
      xPyDict_SetItemString registersDict "RV32"
        riscv32RegistersDictClass in
    registersDict
  else registersDict.
End InitRegNamespace.

(** ** Reading the published namespace *)

(** The attribute dictionary of a class object. *)
Definition class_dict (o : PyObject) : option PyDict :=
  match o with
  | PyClass _ dict _ => Some dict
  | _ => None
  end.

(** [REG.<label>]: the namespace stored under an architecture label. *)
Definition namespace_of (registersDict : PyDict) (label : string)
  : option PyDict :=
  registersDict !! label ≫= class_dict.

(** [REG.<label>.<name>]: two dictionary lookups; [None] is "not found". *)
Definition lookup_reg (registersDict : PyDict) (label name : string)
  : option PyObject :=
  namespace_of registersDict label ≫= (λ ns : PyDict, ns !! name).

(** ** The catalog, table by table *)

(** The names a table declares, in declaration order. *)
Definition x86_names (spec : list x86_line) : list string :=
  x86_UPPER_NAME <$> spec.

Definition spec_names {M : Type} (spec : list (spec_line M)) : list string :=
  UPPER_NAME <$> spec.

(** The names of the lines of [x86.spec] that pass the 32-bit filter. *)
Definition x86_avail_names (spec : list x86_line) : list string :=
  x86_UPPER_NAME <$> filter (λ l, X86_AVAIL l = true) spec.

(** The table whose register names are pasted onto an enumerator prefix. *)
Definition declared_names (h : headers) (p : id_prefix) : list string :=
  match p with
  | ID_REG_X86 => x86_names (x86_spec h)
  | ID_REG_AARCH64 => spec_names (aarch64_spec h)
  | ID_REG_ARM32 => spec_names (arm32_spec h)
  | ID_REG_RV64 => spec_names (riscv64_spec h)
  | ID_REG_RV32 => spec_names (riscv32_spec h)
  end.

(** The catalog read off the six blocks of [initRegNamespace]: for each
    architecture label, the enumerator prefix and the names published
    under it; [None] for a label no block writes. *)
Definition catalog (COMPILE_RISCV : bool) (h : headers) (label : string)
  : option (id_prefix * list string) :=
  if decide (label = "X86") then
    Some (ID_REG_X86, x86_avail_names (x86_spec h))
  else if decide (label = "X86_64") then
    Some (ID_REG_X86, x86_names (x86_spec h))
  else if decide (label = "AARCH64") then
    Some (ID_REG_AARCH64, spec_names (aarch64_spec h))
  else if decide (label = "ARM32") then
    Some (ID_REG_ARM32, spec_names (arm32_spec h))
  else if decide (label = "RV64") then
    if COMPILE_RISCV then Some (ID_REG_RV64, spec_names (riscv64_spec h))
    else None
  else if decide (label = "RV32") then
    if COMPILE_RISCV then Some (ID_REG_RV32, spec_names (riscv32_spec h))
    else None
  else None.

(** Modelled from the spec: the Identifier Assigner.  The enumerators
    [triton::arch::ID_REG_<ARCH>_<NAME>] are declared outside this file;
    the spec gives their contract: "RegisterId: an unsigned integer,
    unique within its architecture's identifier space". *)
Definition ids_unique (h : headers) : Prop :=
  ∀ p n1 n2, n1 ∈ declared_names h p → n2 ∈ declared_names h p →
    register_e h p n1 = register_e h p n2 → n1 = n2.

(** Modelled from the spec: the same contract, "an unsigned integer", at
    the width of [PyLong_FromUint32]'s parameter. *)
Definition ids_unsigned32 (h : headers) : Prop :=
  ∀ p n, n ∈ declared_names h p → 0 ≤ register_e h p n < 2 ^ 32.

(** The same headers with every [SYS_REG_SPEC(...)] line rewritten as a
    [REG_SPEC(...)] line. *)
Definition as_ordinary (l : spec_line macro) : spec_line macro :=
  match line_macro l with
  | SYS_REG_SPEC => SpecLine (Reg REG_SPEC) (UPPER_NAME l)
  | Reg _ => l
  end.

Definition without_sys_marker (h : headers) : headers :=
  Headers (x86_spec h) (as_ordinary <$> aarch64_spec h) (arm32_spec h)
    (as_ordinary <$> riscv64_spec h) (as_ordinary <$> riscv32_spec h)
    (register_e h).

(** The same headers with the [X86_AVAIL] column of [x86.spec] replaced
    by [avail]. *)
Definition with_x86_avail (avail : x86_line → bool) (h : headers) : headers :=
  Headers
    ((λ l, X86Line (x86_macro l) (x86_UPPER_NAME l) (avail l)) <$> x86_spec h)
    (aarch64_spec h) (arm32_spec h) (riscv64_spec h) (riscv32_spec h)
    (register_e h).

(** ** Small headers to run the function on *)

Definition enum_value (values : list (string * Z)) (n : string) : Z :=
  default 0 ((list_to_map values : gmap string Z) !! n).

(** The table of the spec's example scenario: AL (1) and AH (2) are
    available to the 32-bit variant, FUTURE1 (3) is not. *)
Definition toy_x86_spec : list x86_line :=
  [ X86Line REG_SPEC "AL" true;
    X86Line REG_SPEC "AH" true;
    X86Line REG_SPEC_NO_CAPSTONE "FUTURE1" false ].

Definition toy_register_e (p : id_prefix) : string → Z :=
  match p with
  | ID_REG_X86 => enum_value [("AL", 1); ("AH", 2); ("FUTURE1", 3)]
  | ID_REG_AARCH64 => enum_value [("X0", 1); ("SP", 2); ("ACTLR_EL1", 3)]
  | ID_REG_ARM32 => enum_value [("R0", 1); ("PC", 2)]
  | ID_REG_RV64 => enum_value [("X1", 1); ("MSTATUS", 2)]
  | ID_REG_RV32 => enum_value [("X1", 1); ("MEPC", 2)]
  end%string.

Definition toy : headers :=
  Headers toy_x86_spec
    [ SpecLine (Reg REG_SPEC) "X0"; SpecLine (Reg REG_SPEC_NO_CAPSTONE) "SP";
      SpecLine SYS_REG_SPEC "ACTLR_EL1" ]
    [ SpecLine REG_SPEC "R0"; SpecLine REG_SPEC "PC" ]
    [ SpecLine (Reg REG_SPEC) "X1"; SpecLine SYS_REG_SPEC "MSTATUS" ]
    [ SpecLine (Reg REG_SPEC) "X1"; SpecLine SYS_REG_SPEC "MEPC" ]
    toy_register_e.

(** The toy headers with every line of [x86.spec] available to the
    32-bit variant. *)
Definition all_avail : headers := with_x86_avail (λ _, true) toy.

(** Two tables with the same lines, in whatever order and however often
    each is written. *)
Definition same_lines {L : Type} (spec spec' : list L) : Prop :=
  ∀ l, l ∈ spec ↔ l ∈ spec'.

(** A namespace that holds a table in full: its keys are the table's
    names, and each line's name maps to the enumerator of that name. *)
Definition holds_table {M : Type} (h : headers) (p : id_prefix)
  (spec : list (spec_line M)) (ns : PyDict) : Prop :=
  dom ns = list_to_set (spec_names spec)
  ∧ ∀ l, l ∈ spec →
         ns !! UPPER_NAME l
         = Some (PyLong_FromUint32 (register_e h p (UPPER_NAME l))).

(** The same line invoked through [REG_SPEC] where the table has
    [REG_SPEC_NO_CAPSTONE]. *)
Definition x86_as_capstone (l : x86_line) : x86_line :=
  X86Line REG_SPEC (x86_UPPER_NAME l) (X86_AVAIL l).

Definition reg_as_capstone (l : spec_line reg_macro) : spec_line reg_macro :=
  SpecLine REG_SPEC (UPPER_NAME l).

Definition sys_as_capstone (l : spec_line macro) : spec_line macro :=
  match line_macro l with
  | Reg _ => SpecLine (Reg REG_SPEC) (UPPER_NAME l)
  | SYS_REG_SPEC => l
  end.

Definition without_no_capstone (h : headers) : headers :=
  Headers (x86_as_capstone <$> x86_spec h)
    (sys_as_capstone <$> aarch64_spec h) (reg_as_capstone <$> arm32_spec h)
    (sys_as_capstone <$> riscv64_spec h) (sys_as_capstone <$> riscv32_spec h)
    (register_e h).

(** The toy tables with their lines in another order, one of them
    written twice. *)
Definition toy_shuffled : headers :=
  Headers
    [ X86Line REG_SPEC_NO_CAPSTONE "FUTURE1" false;
      X86Line REG_SPEC "AH" true;
      X86Line REG_SPEC "AL" true;
      X86Line REG_SPEC "AH" true ]
    [ SpecLine SYS_REG_SPEC "ACTLR_EL1"; SpecLine (Reg REG_SPEC) "X0";
      SpecLine (Reg REG_SPEC_NO_CAPSTONE) "SP" ]
    [ SpecLine REG_SPEC "PC"; SpecLine REG_SPEC "R0"; SpecLine REG_SPEC "PC" ]
    [ SpecLine SYS_REG_SPEC "MSTATUS"; SpecLine (Reg REG_SPEC) "X1" ]
    [ SpecLine SYS_REG_SPEC "MEPC"; SpecLine (Reg REG_SPEC) "X1" ]
    toy_register_e.

(** Headers that share [x86.spec] and the [ID_REG_X86] enumerators with
    the toy ones and nothing else. *)
Definition toy_x86_only : headers :=
  Headers toy_x86_spec [] [ SpecLine REG_SPEC "LR" ] [] []
    (λ p, match p with
          | ID_REG_X86 => toy_register_e ID_REG_X86
          | _ => λ _, 9
          end).

(** * Properties *)

(** ** Dictionaries filled by an included table *)

Section Include.
Context {L : Type}.
Variable value : string → PyObject.

(** A table whose lines each either store [value n] under their name
    [n] or do nothing leaves exactly the selected names defined. *)
Lemma lookup_foldl_select (step : PyDict → L → PyDict)
    (sel : L → option string) (spec : list L) (d : PyDict) (k : string) :
  (∀ d l, step d l = match sel l with
                     | Some n => <[n := value n]> d
                     | None => d
                     end) →
  foldl step d spec !! k
  = if decide (k ∈ omap sel spec) then Some (value k) else d !! k.
Proof.
  intros Hstep. revert d.
  induction spec as [|l spec IH]; intros d.
  - cbn [foldl omap]. case_decide as Hin; [by apply elem_of_nil in Hin|done].
  - cbn [foldl omap list_omap]. rewrite IH, Hstep.
    destruct (sel l) as [n|]; [|done].
    rewrite lookup_insert.
    repeat case_decide; subst; try done;
      try (exfalso; eauto using list_elem_of_here, list_elem_of_further; fail).
    match goal with H : _ ∈ _ :: _ |- _ =>
      apply elem_of_cons in H as [?|?]; done
    end.
Qed.
End Include.

Lemma omap_avail (spec : list x86_line) :
  omap (λ l, if X86_AVAIL l then Some (x86_UPPER_NAME l) else None) spec
  = x86_avail_names spec.
Proof.
  unfold x86_avail_names. induction spec as [|l spec IH]; [done|].
  cbn [omap list_omap]. rewrite filter_cons, IH.
  destruct l as [m n []]; cbn [X86_AVAIL x86_UPPER_NAME].
  - by rewrite decide_True.
  - by rewrite decide_False.
Qed.

Lemma omap_Some_fmap {A B : Type} (f : A → B) (l : list A) :
  omap (λ x, Some (f x)) l = f <$> l.
Proof. induction l; simpl; by f_equal. Qed.

Section Namespaces.
Variable h : headers.

Lemma lookup_include_x86 (d : PyDict) (k : string) :
  include x86_macro (reg_defs (X86_REG_SPEC h)) (x86_spec h) d !! k
  = if decide (k ∈ x86_avail_names (x86_spec h))
    then Some (PyLong_FromUint32 (register_e h ID_REG_X86 k))
    else d !! k.
Proof.
  unfold include. rewrite <- omap_avail.
  apply (lookup_foldl_select
           (λ n, PyLong_FromUint32 (register_e h ID_REG_X86 n))).
  intros d' [[] n []]; reflexivity.
Qed.

Lemma lookup_include_x86_64 (d : PyDict) (k : string) :
  include x86_macro (reg_defs (X86_64_REG_SPEC h)) (x86_spec h) d !! k
  = if decide (k ∈ x86_names (x86_spec h))
    then Some (PyLong_FromUint32 (register_e h ID_REG_X86 k))
    else d !! k.
Proof.
  unfold include, x86_names. rewrite <- omap_Some_fmap.
  apply (lookup_foldl_select
           (λ n, PyLong_FromUint32 (register_e h ID_REG_X86 n))).
  intros d' [[] n a]; reflexivity.
Qed.

Lemma lookup_include_reg (p : id_prefix) (spec : list (spec_line reg_macro))
    (d : PyDict) (k : string) :
  include line_macro (reg_defs (ARCH_REG_SPEC h p)) spec d !! k
  = if decide (k ∈ spec_names spec)
    then Some (PyLong_FromUint32 (register_e h p k))
    else d !! k.
Proof.
  unfold include, spec_names. rewrite <- omap_Some_fmap.
  apply (lookup_foldl_select (λ n, PyLong_FromUint32 (register_e h p n))).
  intros d' [[] n]; reflexivity.
Qed.

Lemma lookup_include_sys (p : id_prefix) (spec : list (spec_line macro))
    (d : PyDict) (k : string) :
  include line_macro (sys_defs (ARCH_REG_SPEC h p)) spec d !! k
  = if decide (k ∈ spec_names spec)
    then Some (PyLong_FromUint32 (register_e h p k))
    else d !! k.
Proof.
  unfold include, spec_names. rewrite <- omap_Some_fmap.
  apply (lookup_foldl_select (λ n, PyLong_FromUint32 (register_e h p n))).
  intros d' [[[]|] n]; reflexivity.
Qed.
End Namespaces.

(** ** The top-level dictionary *)

(** Unfolds the statements of [initRegNamespace] down to the chain of
    dictionary stores. *)
Ltac unfold_init :=
  unfold initRegNamespace, PyDict_Clear, xPyDict_SetItemString,
    xPyClass_New, xPyString_FromString, xPyDict_New;
  cbv zeta.

(** Reads one key of that chain. *)
Ltac read_key :=
  repeat (rewrite lookup_insert_ne by done);
  first [rewrite lookup_insert_eq | rewrite lookup_empty].

Section TopLevel.
Variable COMPILE_RISCV : bool.
Variable h : headers.
Variable d : PyDict.

Lemma namespace_of_X86 :
  namespace_of (initRegNamespace COMPILE_RISCV h d) "X86"
  = Some (include x86_macro (reg_defs (X86_REG_SPEC h)) (x86_spec h) ∅).
Proof.
  unfold namespace_of. unfold_init.
  destruct COMPILE_RISCV; read_key; reflexivity.
Qed.

Lemma namespace_of_X86_64 :
  namespace_of (initRegNamespace COMPILE_RISCV h d) "X86_64"
  = Some (include x86_macro (reg_defs (X86_64_REG_SPEC h)) (x86_spec h) ∅).
Proof.
  unfold namespace_of. unfold_init.
  destruct COMPILE_RISCV; read_key; reflexivity.
Qed.

Lemma namespace_of_AARCH64 :
  namespace_of (initRegNamespace COMPILE_RISCV h d) "AARCH64"
  = Some (include line_macro (sys_defs (ARCH_REG_SPEC h ID_REG_AARCH64))
            (aarch64_spec h) ∅).
Proof.
  unfold namespace_of. unfold_init.
  destruct COMPILE_RISCV; read_key; reflexivity.
Qed.

Lemma namespace_of_ARM32 :
  namespace_of (initRegNamespace COMPILE_RISCV h d) "ARM32"
  = Some (include line_macro (reg_defs (ARCH_REG_SPEC h ID_REG_ARM32))
            (arm32_spec h) ∅).
Proof.
  unfold namespace_of. unfold_init.
  destruct COMPILE_RISCV; read_key; reflexivity.
Qed.

Lemma namespace_of_RV64 :
  namespace_of (initRegNamespace COMPILE_RISCV h d) "RV64"
  = if COMPILE_RISCV
    then Some (include line_macro (sys_defs (ARCH_REG_SPEC h ID_REG_RV64))
                 (riscv64_spec h) ∅)
    else None.
Proof.
  unfold namespace_of. unfold_init.
  destruct COMPILE_RISCV; read_key; reflexivity.
Qed.

Lemma namespace_of_RV32 :
  namespace_of (initRegNamespace COMPILE_RISCV h d) "RV32"
  = if COMPILE_RISCV
    then Some (include line_macro (sys_defs (ARCH_REG_SPEC h ID_REG_RV32))
                 (riscv32_spec h) ∅)
    else None.
Proof.
  unfold namespace_of. unfold_init.
  destruct COMPILE_RISCV; read_key; reflexivity.
Qed.

Lemma namespace_of_other (label : string) :
  label ∉ ["X86"; "X86_64"; "AARCH64"; "ARM32"; "RV64"; "RV32"]%string →
  initRegNamespace COMPILE_RISCV h d !! label = None.
Proof.
  intros Hnot. unfold_init.
  destruct COMPILE_RISCV;
    repeat (rewrite lookup_insert_ne
              by (intros <-; apply Hnot; set_solver));
    apply lookup_empty.
Qed.

End TopLevel.

(** The two-level lookup against the catalog. *)
Lemma lookup_reg_catalog (COMPILE_RISCV : bool) (h : headers) (d : PyDict)
    (label name : string) :
  lookup_reg (initRegNamespace COMPILE_RISCV h d) label name
  = match catalog COMPILE_RISCV h label with
    | Some (p, names) =>
        if decide (name ∈ names)
        then Some (PyLong_FromUint32 (register_e h p name))
        else None
    | None => None
    end.
Proof.
  unfold lookup_reg, catalog.
  destruct (decide (label ∈
    ["X86"; "X86_64"; "AARCH64"; "ARM32"; "RV64"; "RV32"]%string))
    as [Hin|Hout].
  - repeat (apply elem_of_cons in Hin as [->|Hin]);
      [ .. | by apply elem_of_nil in Hin ];
      repeat (rewrite decide_False by done); rewrite decide_True by done.
    + rewrite namespace_of_X86. cbn [mbind option_bind].
      by rewrite lookup_include_x86, lookup_empty.
    + rewrite namespace_of_X86_64. cbn [mbind option_bind].
      by rewrite lookup_include_x86_64, lookup_empty.
    + rewrite namespace_of_AARCH64. cbn [mbind option_bind].
      by rewrite lookup_include_sys, lookup_empty.
    + rewrite namespace_of_ARM32. cbn [mbind option_bind].
      by rewrite lookup_include_reg, lookup_empty.
    + rewrite namespace_of_RV64. destruct COMPILE_RISCV; [|done].
      cbn [mbind option_bind]. by rewrite lookup_include_sys, lookup_empty.
    + rewrite namespace_of_RV32. destruct COMPILE_RISCV; [|done].
      cbn [mbind option_bind]. by rewrite lookup_include_sys, lookup_empty.
  - unfold namespace_of. rewrite namespace_of_other by done.
    repeat (rewrite decide_False by (intros ->; apply Hout; set_solver)).
    done.
Qed.

(** The top-level keys are the labels of the blocks that were compiled. *)
Lemma dom_initRegNamespace (COMPILE_RISCV : bool) (h : headers) (d : PyDict) :
  dom (initRegNamespace COMPILE_RISCV h d)
  = if COMPILE_RISCV
    then ({[ "X86"; "X86_64"; "AARCH64"; "ARM32"; "RV64"; "RV32" ]}%string
            : gset string)
    else {[ "X86"; "X86_64"; "AARCH64"; "ARM32" ]}%string.
Proof.
  unfold_init. destruct COMPILE_RISCV;
    rewrite !dom_insert_L, dom_empty_L; set_solver.
Qed.

(** ** Names and tables *)

Lemma elem_of_x86_names (spec : list x86_line) (n : string) :
  n ∈ x86_names spec ↔ ∃ l, l ∈ spec ∧ x86_UPPER_NAME l = n.
Proof.
  unfold x86_names. rewrite list_elem_of_fmap.
  split; intros (l & H1 & H2); eauto.
Qed.

Lemma elem_of_x86_avail_names (spec : list x86_line) (n : string) :
  n ∈ x86_avail_names spec
  ↔ ∃ l, l ∈ spec ∧ x86_UPPER_NAME l = n ∧ X86_AVAIL l = true.
Proof.
  unfold x86_avail_names. rewrite list_elem_of_fmap.
  split.
  - intros (l & -> & [Hav Hin]%list_elem_of_filter). eauto.
  - intros (l & Hin & <- & Hav). exists l. split; [done|].
    by apply list_elem_of_filter.
Qed.

Lemma x86_avail_names_declared (spec : list x86_line) (n : string) :
  n ∈ x86_avail_names spec → n ∈ x86_names spec.
Proof.
  rewrite elem_of_x86_avail_names, elem_of_x86_names.
  intros (l & Hin & Hname & _). eauto.
Qed.

(** In a table without repeated names a name identifies its line. *)
Lemma NoDup_names_line (spec : list x86_line) (l1 l2 : x86_line) :
  NoDup (x86_names spec) → l1 ∈ spec → l2 ∈ spec →
  x86_UPPER_NAME l1 = x86_UPPER_NAME l2 → l1 = l2.
Proof.
  unfold x86_names. induction spec as [|l spec IH]; intros Hnd H1 H2 Heq.
  - by apply elem_of_nil in H1.
  - rewrite fmap_cons in Hnd. apply NoDup_cons in Hnd as [Hnotin Hnd].
    apply elem_of_cons in H1 as [->|H1]; apply elem_of_cons in H2 as [->|H2].
    + done.
    + exfalso. apply Hnotin. rewrite Heq. by apply list_elem_of_fmap_2.
    + exfalso. apply Hnotin. rewrite <- Heq. by apply list_elem_of_fmap_2.
    + by apply IH.
Qed.

Lemma avail_name_iff (spec : list x86_line) (l : x86_line) :
  NoDup (x86_names spec) → l ∈ spec →
  x86_UPPER_NAME l ∈ x86_avail_names spec ↔ X86_AVAIL l = true.
Proof.
  intros Hnd Hin. rewrite elem_of_x86_avail_names. split.
  - intros (l' & Hin' & Heq & Hav).
    by rewrite <- (NoDup_names_line spec l' l Hnd Hin' Hin Heq).
  - intros Hav. eauto.
Qed.

(** Every published name is declared by the table of its prefix. *)
Lemma catalog_declared (COMPILE_RISCV : bool) (h : headers) (label : string)
    (p : id_prefix) (names : list string) (n : string) :
  catalog COMPILE_RISCV h label = Some (p, names) →
  n ∈ names → n ∈ declared_names h p.
Proof.
  unfold catalog.
  repeat case_decide; try destruct COMPILE_RISCV; intros Hc; try done;
    injection Hc as <- <-;
    first [ apply x86_avail_names_declared | exact (λ Hn, Hn) ].
Qed.

Lemma catalog_X86 (COMPILE_RISCV : bool) (h : headers) :
  catalog COMPILE_RISCV h "X86"
  = Some (ID_REG_X86, x86_avail_names (x86_spec h)).
Proof. reflexivity. Qed.

Lemma catalog_X86_64 (COMPILE_RISCV : bool) (h : headers) :
  catalog COMPILE_RISCV h "X86_64" = Some (ID_REG_X86, x86_names (x86_spec h)).
Proof. reflexivity. Qed.

Lemma lookup_reg_X86 (COMPILE_RISCV : bool) (h : headers) (d : PyDict)
    (name : string) :
  lookup_reg (initRegNamespace COMPILE_RISCV h d) "X86" name
  = if decide (name ∈ x86_avail_names (x86_spec h))
    then Some (PyLong_FromUint32 (register_e h ID_REG_X86 name))
    else None.
Proof. by rewrite lookup_reg_catalog, catalog_X86. Qed.

Lemma lookup_reg_X86_64 (COMPILE_RISCV : bool) (h : headers) (d : PyDict)
    (name : string) :
  lookup_reg (initRegNamespace COMPILE_RISCV h d) "X86_64" name
  = if decide (name ∈ x86_names (x86_spec h))
    then Some (PyLong_FromUint32 (register_e h ID_REG_X86 name))
    else None.
Proof. by rewrite lookup_reg_catalog, catalog_X86_64. Qed.

(** An enumerator that fits 32 unsigned bits is published unchanged. *)
Lemma PyLong_FromUint32_id (value : Z) :
  0 ≤ value < 2 ^ 32 → PyLong_FromUint32 value = PyLong value.
Proof. intros Hr. unfold PyLong_FromUint32. by rewrite Z.mod_small. Qed.

(** ** The toy headers *)

Lemma toy_x86_names_NoDup : NoDup (x86_names (x86_spec toy)).
Proof. apply (bool_decide_unpack _). vm_compute. exact I. Qed.


Lemma toy_ids_unique : ids_unique toy.
Proof.
  intros p n1 n2 H1 H2 Heq.
  destruct p; cbn in H1, H2;
    repeat (apply elem_of_cons in H1 as [->|H1]);
    try (by apply elem_of_nil in H1);
    repeat (apply elem_of_cons in H2 as [->|H2]);
    try (by apply elem_of_nil in H2);
    try reflexivity; vm_compute in Heq; discriminate.
Qed.

Lemma toy_ids_unsigned32 : ids_unsigned32 toy.
Proof.
  intros p n Hn.
  destruct p; cbn in Hn;
    repeat (apply elem_of_cons in Hn as [->|Hn]);
    try (by apply elem_of_nil in Hn);
    (vm_compute; split; [discriminate | reflexivity]).
Qed.

(** ** Tables that differ in columns the expansion does not read *)

Lemma x86_names_with_avail (avail : x86_line → bool) (h : headers) :
  x86_names (x86_spec (with_x86_avail avail h)) = x86_names (x86_spec h).
Proof.
  unfold x86_names, with_x86_avail. cbn [x86_spec].
  rewrite <- list_fmap_compose. by apply list_fmap_ext.
Qed.

Lemma include_as_ordinary (body : PyDict → spec_line macro → PyDict)
    (spec : list (spec_line macro)) (d : PyDict) :
  (∀ d l, body d (as_ordinary l) = body d l) →
  include line_macro (sys_defs body) (as_ordinary <$> spec) d
  = include line_macro (sys_defs body) spec d.
Proof.
  intros Hbody. unfold include. revert d.
  induction spec as [|l spec IH]; intros d; [done|].
  rewrite fmap_cons. cbn [foldl]. rewrite IH. f_equal.
  destruct l as [[[]|] n]; cbn; try done.
  apply (Hbody d (SpecLine SYS_REG_SPEC n)).
Qed.

Lemma ARCH_REG_SPEC_as_ordinary (h : headers) (p : id_prefix) (d : PyDict)
    (l : spec_line macro) :
  ARCH_REG_SPEC h p d (as_ordinary l) = ARCH_REG_SPEC h p d l.
Proof. by destruct l as [[[]|] n]. Qed.

Lemma lookup_reg_declared (COMPILE_RISCV : bool) (h : headers) (d : PyDict)
    (label : string) (p : id_prefix) (spec : list (spec_line macro))
    (l : spec_line macro) :
  catalog COMPILE_RISCV h label = Some (p, spec_names spec) →
  l ∈ spec →
  lookup_reg (initRegNamespace COMPILE_RISCV h d) label (UPPER_NAME l)
  = Some (PyLong_FromUint32 (register_e h p (UPPER_NAME l))).
Proof.
  intros Hc Hin. rewrite lookup_reg_catalog, Hc.
  rewrite decide_True; [done|]. by apply list_elem_of_fmap_2.
Qed.

(** ** The claims *)

(** C5: the published dictionary has exactly the keys X86, X86_64, AARCH64
    and ARM32 when RISC-V is not compiled in, and those four plus RV64 and
    RV32 when it is; the four mandatory keys are there in either build. *)
Theorem top_level_keys (COMPILE_RISCV : bool) (h : headers) (d : PyDict) :
  dom (initRegNamespace COMPILE_RISCV h d)
  = (if COMPILE_RISCV
     then ({[ "X86"; "X86_64"; "AARCH64"; "ARM32"; "RV64"; "RV32" ]}%string
             : gset string)
     else {[ "X86"; "X86_64"; "AARCH64"; "ARM32" ]}%string)
  ∧ ({[ "X86"; "X86_64"; "AARCH64"; "ARM32" ]}%string : gset string)
    ⊆ dom (initRegNamespace COMPILE_RISCV h d).
Proof.
  rewrite dom_initRegNamespace. split; [done|].
  destruct COMPILE_RISCV; [|done].
  intros label. rewrite !elem_of_union, !elem_of_singleton. tauto.
Qed.

(** C3: whatever the dictionary held before, after [initRegNamespace] it
    holds exactly what a fresh dictionary would hold: nothing of the prior
    content is left, and running the function a second time changes
    nothing. *)
Theorem export_idempotent (COMPILE_RISCV : bool) (h : headers) (d : PyDict) :
  initRegNamespace COMPILE_RISCV h d = initRegNamespace COMPILE_RISCV h ∅
  ∧ initRegNamespace COMPILE_RISCV h (initRegNamespace COMPILE_RISCV h d)
    = initRegNamespace COMPILE_RISCV h d
  ∧ (∀ k, k ∉ ["X86"; "X86_64"; "AARCH64"; "ARM32"; "RV64"; "RV32"]%string →
          initRegNamespace COMPILE_RISCV h d !! k = None).
Proof.
  split; [|split].
  - unfold initRegNamespace, PyDict_Clear. reflexivity.
  - unfold initRegNamespace, PyDict_Clear. reflexivity.
  - intros k Hk. by apply namespace_of_other.
Qed.

(** The test the spec describes for C3: an unrelated entry seeded into the
    dictionary is gone after the export. *)
Example export_drops_seeded_entry :
  let seeded : PyDict := {[ "JUNK"%string := PyLong 7 ]} in
  seeded !! "JUNK"%string = Some (PyLong 7)
  ∧ initRegNamespace false toy seeded !! "JUNK"%string = None
  ∧ initRegNamespace false toy seeded = initRegNamespace false toy ∅.
Proof. split_and!; reflexivity. Qed.

(** C6: the build without RISC-V publishes the dictionary of the build
    with RISC-V minus the keys RV64 and RV32, which that build does have;
    under every other label, every name resolves alike in both builds. *)
Theorem riscv_frame (h : headers) (d : PyDict) :
  initRegNamespace false h d
  = delete "RV32"%string (delete "RV64"%string (initRegNamespace true h d))
  ∧ is_Some (initRegNamespace true h d !! "RV64"%string)
  ∧ is_Some (initRegNamespace true h d !! "RV32"%string)
  ∧ initRegNamespace false h d !! "RV64"%string = None
  ∧ initRegNamespace false h d !! "RV32"%string = None
  ∧ (∀ label, label ≠ "RV64"%string → label ≠ "RV32"%string →
       initRegNamespace false h d !! label
       = initRegNamespace true h d !! label)
  ∧ (∀ label name, label ∈ ["X86"; "X86_64"; "AARCH64"; "ARM32"]%string →
       lookup_reg (initRegNamespace false h d) label name
       = lookup_reg (initRegNamespace true h d) label name).
Proof.
  assert (Hframe : ∀ label, label ≠ "RV64"%string → label ≠ "RV32"%string →
            initRegNamespace false h d !! label
            = initRegNamespace true h d !! label).
  { intros label H64 H32. unfold_init.
    by rewrite (lookup_insert_ne _ "RV32"%string),
      (lookup_insert_ne _ "RV64"%string). }
  split_and!.
  - apply map_eq. intros k.
    destruct (decide (k = "RV32"%string)) as [->|H32].
    { rewrite lookup_delete_eq. unfold_init. by read_key. }
    rewrite lookup_delete_ne by done.
    destruct (decide (k = "RV64"%string)) as [->|H64].
    { rewrite lookup_delete_eq. unfold_init. by read_key. }
    rewrite lookup_delete_ne by done. by apply Hframe.
  - unfold_init. read_key. eauto.
  - unfold_init. read_key. eauto.
  - unfold_init. by read_key.
  - unfold_init. by read_key.
  - done.
  - intros label name Hin. unfold lookup_reg, namespace_of.
    rewrite Hframe; [done| |]; intros ->;
      repeat (apply elem_of_cons in Hin as [?|Hin]; [done|]);
      by apply elem_of_nil in Hin.
Qed.

(** C10: every value stored under a name of a published namespace is
    [PyLong_FromUint32] of an enumerator of that name, hence a Python
    integer made from 32 unsigned bits: it lies in [0, 2^32). *)
Theorem identifiers_are_uint32 (COMPILE_RISCV : bool) (h : headers)
    (d : PyDict) (label name : string) (v : PyObject) :
  lookup_reg (initRegNamespace COMPILE_RISCV h d) label name = Some v →
  (∃ p, v = PyLong_FromUint32 (register_e h p name))
  ∧ ∃ z, v = PyLong z ∧ 0 ≤ z < 2 ^ 32.
Proof.
  rewrite lookup_reg_catalog.
  destruct (catalog COMPILE_RISCV h label) as [[p names]|]; [|done].
  case_decide; [|done]. intros [= <-]. split.
  - by exists p.
  - eexists. split; [reflexivity|].
    apply Z.mod_pos_bound. lia.
Qed.

Lemma identifiers_are_uint32_toy :
  lookup_reg (initRegNamespace true toy ∅) "RV32" "MEPC" = Some (PyLong 2)
  ∧ (∃ p, PyLong 2 = PyLong_FromUint32 (register_e toy p "MEPC"))
  ∧ ∃ z, PyLong 2 = PyLong z ∧ 0 ≤ z < 2 ^ 32.
Proof.
  split; [reflexivity|].
  apply (identifiers_are_uint32 true toy ∅ "RV32" "MEPC" (PyLong 2)).
  reflexivity.
Defined.

(** C7: a query under a label the build does not publish (RV64 and RV32
    without RISC-V, or any other string), or for a name the label's table
    does not publish (not declared, or filtered out of X86 by
    [X86_AVAIL]), finds nothing: the result is [None], not a value. *)
Theorem absent_is_not_found (COMPILE_RISCV : bool) (h : headers)
    (d : PyDict) (label name : string) :
  let R := initRegNamespace COMPILE_RISCV h d in
  (catalog COMPILE_RISCV h label = None → lookup_reg R label name = None)
  ∧ (∀ p names, catalog COMPILE_RISCV h label = Some (p, names) →
       name ∉ names → lookup_reg R label name = None)
  ∧ (label ∉ ["X86"; "X86_64"; "AARCH64"; "ARM32"; "RV64"; "RV32"]%string →
       R !! label = None ∧ lookup_reg R label name = None)
  ∧ (COMPILE_RISCV = false → label ∈ ["RV64"; "RV32"]%string →
       R !! label = None ∧ lookup_reg R label name = None)
  ∧ (name ∉ x86_avail_names (x86_spec h) → lookup_reg R "X86" name = None)
  ∧ (name ∉ x86_names (x86_spec h) →
       lookup_reg R "X86" name = None ∧ lookup_reg R "X86_64" name = None).
Proof.
  cbv zeta. split_and!.
  - intros Hc. by rewrite lookup_reg_catalog, Hc.
  - intros p names Hc Hn. rewrite lookup_reg_catalog, Hc.
    by rewrite decide_False.
  - intros Hl. pose proof (namespace_of_other COMPILE_RISCV h d label Hl) as E.
    split; [done|]. unfold lookup_reg, namespace_of. by rewrite E.
  - intros -> Hl.
    assert (E : initRegNamespace false h d !! label = None).
    { apply elem_of_cons in Hl as [->|Hl];
        [|apply elem_of_cons in Hl as [->|Hl];
          [|by apply elem_of_nil in Hl]];
        unfold_init; by read_key. }
    split; [done|]. unfold lookup_reg, namespace_of. by rewrite E.
  - intros Hn. rewrite lookup_reg_X86. by rewrite decide_False.
  - intros Hn. rewrite lookup_reg_X86, lookup_reg_X86_64. split.
    + rewrite decide_False; [done|].
      intros Hin. by apply Hn, x86_avail_names_declared.
    + by rewrite decide_False.
Qed.

Lemma absent_is_not_found_toy :
  lookup_reg (initRegNamespace false toy ∅) "RV64" "X1" = None
  ∧ lookup_reg (initRegNamespace true toy ∅) "RV64" "X1" = Some (PyLong 1)
  ∧ lookup_reg (initRegNamespace false toy ∅) "MIPS" "X1" = None
  ∧ lookup_reg (initRegNamespace false toy ∅) "X86" "FUTURE1" = None
  ∧ lookup_reg (initRegNamespace false toy ∅) "X86_64" "FUTURE1"
    = Some (PyLong 3)
  ∧ lookup_reg (initRegNamespace false toy ∅) "X86_64" "RAX" = None.
Proof.
  destruct (absent_is_not_found false toy ∅ "RV64" "X1")
    as (Hcat & _ & _ & _ & _ & _).
  destruct (absent_is_not_found false toy ∅ "MIPS" "X1")
    as (_ & _ & Hother & _ & _ & _).
  destruct (absent_is_not_found false toy ∅ "X86" "FUTURE1")
    as (_ & _ & _ & _ & Hav & _).
  destruct (absent_is_not_found false toy ∅ "X86_64" "RAX")
    as (_ & _ & _ & _ & _ & Hname).
  split_and!.
  - apply Hcat. reflexivity.
  - reflexivity.
  - apply Hother. apply (bool_decide_unpack _). vm_compute. exact I.
  - apply Hav. apply (bool_decide_unpack _). vm_compute. exact I.
  - reflexivity.
  - apply Hname. apply (bool_decide_unpack _). vm_compute. exact I.
Defined.

(** C2: in an [x86.spec] whose names are pairwise distinct, a line whose
    [X86_AVAIL] is false leaves its name out of the X86 namespace, and a
    line whose [X86_AVAIL] is true puts its name there with the
    enumerator of that name (converted to 32 unsigned bits, which leaves
    an enumerator in that range as it is). *)
Theorem x86_availability_filter (COMPILE_RISCV : bool) (h : headers)
    (d : PyDict) (l : x86_line) :
  NoDup (x86_names (x86_spec h)) →
  l ∈ x86_spec h →
  let R := initRegNamespace COMPILE_RISCV h d in
  let id := register_e h ID_REG_X86 (x86_UPPER_NAME l) in
  (X86_AVAIL l = false → lookup_reg R "X86" (x86_UPPER_NAME l) = None)
  ∧ (X86_AVAIL l = true →
       lookup_reg R "X86" (x86_UPPER_NAME l) = Some (PyLong_FromUint32 id))
  ∧ (X86_AVAIL l = true → 0 ≤ id < 2 ^ 32 →
       lookup_reg R "X86" (x86_UPPER_NAME l) = Some (PyLong id)).
Proof.
  intros Hnd Hin R id. subst R id. rewrite lookup_reg_X86.
  pose proof (avail_name_iff (x86_spec h) l Hnd Hin) as Hiff.
  split_and!.
  - intros Hav. rewrite decide_False; [done|].
    rewrite Hiff, Hav. done.
  - intros Hav. rewrite decide_True; [done|]. by apply Hiff.
  - intros Hav Hr. rewrite decide_True by (by apply Hiff).
    by rewrite PyLong_FromUint32_id.
Qed.

(** The example scenario of C2: AL (1) and AH (2) available, FUTURE1 (3)
    not; the X86 namespace is exactly AL -> 1, AH -> 2. *)
Lemma x86_availability_filter_toy :
  namespace_of (initRegNamespace false toy ∅) "X86"
  = Some {[ "AL"%string := PyLong 1; "AH"%string := PyLong 2 ]}
  ∧ lookup_reg (initRegNamespace false toy ∅) "X86" "AL" = Some (PyLong 1)
  ∧ lookup_reg (initRegNamespace false toy ∅) "X86" "AH" = Some (PyLong 2)
  ∧ lookup_reg (initRegNamespace false toy ∅) "X86" "FUTURE1" = None.
Proof.
  split_and!.
  - reflexivity.
  - apply (x86_availability_filter false toy ∅ (X86Line REG_SPEC "AL" true)
             toy_x86_names_NoDup).
    + apply list_elem_of_here.
    + reflexivity.
    + change (0 ≤ 1 < 2 ^ 32). lia.
  - apply (x86_availability_filter false toy ∅ (X86Line REG_SPEC "AH" true)
             toy_x86_names_NoDup).
    + apply list_elem_of_further, list_elem_of_here.
    + reflexivity.
    + change (0 ≤ 2 < 2 ^ 32). lia.
  - apply (x86_availability_filter false toy ∅
             (X86Line REG_SPEC_NO_CAPSTONE "FUTURE1" false)
             toy_x86_names_NoDup).
    + do 2 apply list_elem_of_further. apply list_elem_of_here.
    + reflexivity.
Defined.

(** C1, as the code has it: every name of the X86 namespace is in the
    X86_64 namespace with the same value, and the X86_64 namespace has a
    name the X86 namespace lacks exactly when some name of [x86.spec] has
    no line with [X86_AVAIL] true. *)
Theorem x86_subset_of_x86_64 (COMPILE_RISCV : bool) (h : headers)
    (d : PyDict) :
  let R := initRegNamespace COMPILE_RISCV h d in
  (∀ n v, lookup_reg R "X86" n = Some v → lookup_reg R "X86_64" n = Some v)
  ∧ ((∃ n v, lookup_reg R "X86_64" n = Some v
             ∧ lookup_reg R "X86" n ≠ Some v)
     ↔ (∃ l, l ∈ x86_spec h
           ∧ ∀ l', l' ∈ x86_spec h →
                   x86_UPPER_NAME l' = x86_UPPER_NAME l →
                   X86_AVAIL l' = false)).
Proof.
  cbv zeta. split; [|split].
  - intros n v. rewrite lookup_reg_X86, lookup_reg_X86_64.
    case_decide as Hav; [|done]. intros [= <-].
    by rewrite decide_True by by apply x86_avail_names_declared.
  - intros (n & v & H64 & H32).
    rewrite lookup_reg_X86_64 in H64. rewrite lookup_reg_X86 in H32.
    destruct (decide (n ∈ x86_names (x86_spec h))) as [Hdecl|]; [|done].
    destruct (decide (n ∈ x86_avail_names (x86_spec h))) as [|Hav]; [done|].
    apply elem_of_x86_names in Hdecl as (l & Hin & <-).
    exists l. split; [done|]. intros l' Hin' Hname.
    destruct (X86_AVAIL l') eqn:Hav'; [|done].
    exfalso. apply Hav, elem_of_x86_avail_names. eauto.
  - intros (l & Hin & Hnone).
    exists (x86_UPPER_NAME l),
      (PyLong_FromUint32 (register_e h ID_REG_X86 (x86_UPPER_NAME l))).
    rewrite lookup_reg_X86, lookup_reg_X86_64. split.
    + rewrite decide_True; [done|]. apply elem_of_x86_names. eauto.
    + rewrite decide_False; [done|].
      intros (l' & Hin' & Hname & Hav)%elem_of_x86_avail_names.
      by rewrite (Hnone l' Hin' Hname) in Hav.
Qed.

(** C1 as stated fails: when every line of [x86.spec] has [X86_AVAIL]
    true, the X86_64 namespace has no pair that the X86 namespace lacks. *)
Lemma x86_64_not_strictly_larger :
  let R := initRegNamespace false all_avail ∅ in
  ¬ ((∀ n v, lookup_reg R "X86" n = Some v → lookup_reg R "X86_64" n = Some v)
     ∧ ∃ n v, lookup_reg R "X86_64" n = Some v
              ∧ lookup_reg R "X86" n ≠ Some v).
Proof.
  cbv zeta. intros [_ (n & v & H64 & H32)]. apply H32. rewrite <- H64.
  unfold lookup_reg.
  assert (E : namespace_of (initRegNamespace false all_avail ∅) "X86"
              = namespace_of (initRegNamespace false all_avail ∅) "X86_64")
    by reflexivity.
  by rewrite E.
Qed.

(** With the toy table, where FUTURE1 is not available to the 32-bit
    variant, the inclusion is strict. *)
Example toy_x86_64_strictly_larger :
  lookup_reg (initRegNamespace false toy ∅) "X86_64" "FUTURE1"
  = Some (PyLong 3)
  ∧ lookup_reg (initRegNamespace false toy ∅) "X86" "FUTURE1" = None.
Proof. split; reflexivity. Qed.

(** C9: the X86_64 block stores every line of [x86.spec], whatever its
    [X86_AVAIL]: each name of the table is in the X86_64 namespace with
    its enumerator, the namespace has exactly the table's names (as many
    pairs as lines when no name is repeated), and changing the
    [X86_AVAIL] column changes nothing in it. *)
Theorem x86_64_unconditional (COMPILE_RISCV : bool) (h : headers)
    (d : PyDict) :
  let R := initRegNamespace COMPILE_RISCV h d in
  (∀ l, l ∈ x86_spec h →
     lookup_reg R "X86_64" (x86_UPPER_NAME l)
     = Some (PyLong_FromUint32
               (register_e h ID_REG_X86 (x86_UPPER_NAME l))))
  ∧ (∃ ns : PyDict,
       namespace_of R "X86_64" = Some ns
       ∧ dom ns = list_to_set (x86_names (x86_spec h))
       ∧ (NoDup (x86_names (x86_spec h)) → size ns = length (x86_spec h)))
  ∧ (∀ avail,
       namespace_of
         (initRegNamespace COMPILE_RISCV (with_x86_avail avail h) d) "X86_64"
       = namespace_of R "X86_64").
Proof.
  cbv zeta. split_and!.
  - intros l Hin. rewrite lookup_reg_X86_64.
    rewrite decide_True; [done|]. apply elem_of_x86_names. eauto.
  - eexists. split; [apply namespace_of_X86_64|].
    assert (Hdom :
      dom (include x86_macro (reg_defs (X86_64_REG_SPEC h)) (x86_spec h) ∅)
      = (list_to_set (x86_names (x86_spec h)) : gset string)).
    { apply set_eq. intros k.
      rewrite elem_of_dom, lookup_include_x86_64, lookup_empty,
        elem_of_list_to_set.
      case_decide; split; intros Hk; done. }
    split; [done|]. intros Hnd.
    rewrite <- size_dom, Hdom, size_list_to_set by done.
    unfold x86_names. apply length_fmap.
  - intros avail. rewrite !namespace_of_X86_64. f_equal.
    apply map_eq. intros k. rewrite !lookup_include_x86_64.
    by rewrite x86_names_with_avail.
Qed.

(** C9 on the toy table: FUTURE1, whose [X86_AVAIL] is false, is in the
    X86_64 namespace. *)
Example x86_64_unconditional_toy :
  namespace_of (initRegNamespace false toy ∅) "X86_64"
  = Some {[ "AL"%string := PyLong 1; "AH"%string := PyLong 2;
            "FUTURE1"%string := PyLong 3 ]}.
Proof. reflexivity. Qed.

(** C8: a [SYS_REG_SPEC] line of [aarch64.spec] (and of [riscv64.spec]
    and [riscv32.spec] when RISC-V is compiled in) is stored in the same
    dictionary as the [REG_SPEC] lines, under its name and with its
    enumerator; the published dictionary is the one obtained when every
    such line is written as a [REG_SPEC] line, so nothing in it tells the
    two kinds apart. *)
Theorem system_registers_flat (COMPILE_RISCV : bool) (h : headers)
    (d : PyDict) :
  let R := initRegNamespace COMPILE_RISCV h d in
  (∀ l, l ∈ aarch64_spec h → line_macro l = SYS_REG_SPEC →
     lookup_reg R "AARCH64" (UPPER_NAME l)
     = Some (PyLong_FromUint32
               (register_e h ID_REG_AARCH64 (UPPER_NAME l))))
  ∧ (COMPILE_RISCV = true →
     ∀ l, l ∈ riscv64_spec h → line_macro l = SYS_REG_SPEC →
       lookup_reg R "RV64" (UPPER_NAME l)
       = Some (PyLong_FromUint32 (register_e h ID_REG_RV64 (UPPER_NAME l))))
  ∧ (COMPILE_RISCV = true →
     ∀ l, l ∈ riscv32_spec h → line_macro l = SYS_REG_SPEC →
       lookup_reg R "RV32" (UPPER_NAME l)
       = Some (PyLong_FromUint32 (register_e h ID_REG_RV32 (UPPER_NAME l))))
  ∧ initRegNamespace COMPILE_RISCV (without_sys_marker h) d = R.
Proof.
  cbv zeta. split_and!.
  - intros l Hin _.
    by apply (lookup_reg_declared _ _ _ _ _ (aarch64_spec h)).
  - intros -> l Hin _.
    by apply (lookup_reg_declared _ _ _ _ _ (riscv64_spec h)).
  - intros -> l Hin _.
    by apply (lookup_reg_declared _ _ _ _ _ (riscv32_spec h)).
  - unfold initRegNamespace, without_sys_marker.
    cbn [x86_spec aarch64_spec arm32_spec riscv64_spec riscv32_spec].
    rewrite !include_as_ordinary by apply ARCH_REG_SPEC_as_ordinary.
    reflexivity.
Qed.

Lemma system_registers_flat_toy :
  lookup_reg (initRegNamespace true toy ∅) "AARCH64" "ACTLR_EL1"
  = Some (PyLong 3)
  ∧ lookup_reg (initRegNamespace true toy ∅) "AARCH64" "X0"
    = Some (PyLong 1)
  ∧ lookup_reg (initRegNamespace true toy ∅) "RV64" "MSTATUS"
    = Some (PyLong 2)
  ∧ lookup_reg (initRegNamespace true toy ∅) "RV32" "MEPC"
    = Some (PyLong 2).
Proof.
  destruct (system_registers_flat true toy ∅) as (Ha & H64 & H32 & _).
  split_and!.
  - apply (Ha (SpecLine SYS_REG_SPEC "ACTLR_EL1")); [|reflexivity].
    do 2 apply list_elem_of_further. apply list_elem_of_here.
  - reflexivity.
  - apply (H64 eq_refl (SpecLine SYS_REG_SPEC "MSTATUS")); [|reflexivity].
    apply list_elem_of_further, list_elem_of_here.
  - apply (H32 eq_refl (SpecLine SYS_REG_SPEC "MEPC")); [|reflexivity].
    apply list_elem_of_further, list_elem_of_here.
Defined.

(** C4: under every published label a name has one value, and, the
    enumerators of the declared names being pairwise distinct unsigned
    32-bit values, two names with the same value are the same name. *)
Theorem namespace_injective (COMPILE_RISCV : bool) (h : headers)
    (d : PyDict) (label n1 n2 : string) (v1 v2 : PyObject) :
  ids_unique h → ids_unsigned32 h →
  lookup_reg (initRegNamespace COMPILE_RISCV h d) label n1 = Some v1 →
  lookup_reg (initRegNamespace COMPILE_RISCV h d) label n2 = Some v2 →
  (n1 = n2 → v1 = v2) ∧ (v1 = v2 → n1 = n2).
Proof.
  intros Huniq Hrange H1 H2. split.
  - intros <-. rewrite H1 in H2. by injection H2.
  - intros <-. rewrite lookup_reg_catalog in H1, H2.
    destruct (catalog COMPILE_RISCV h label) as [[p names]|] eqn:Hc; [|done].
    destruct (decide (n1 ∈ names)) as [Hn1|]; [|done].
    destruct (decide (n2 ∈ names)) as [Hn2|]; [|done].
    apply (catalog_declared _ _ _ _ _ _ Hc) in Hn1, Hn2.
    rewrite (PyLong_FromUint32_id _ (Hrange p n1 Hn1)) in H1.
    rewrite (PyLong_FromUint32_id _ (Hrange p n2 Hn2)) in H2.
    apply (Huniq p); [done..|]. congruence.
Qed.

Lemma namespace_injective_toy :
  lookup_reg (initRegNamespace false toy ∅) "X86_64" "AH" = Some (PyLong 2)
  ∧ lookup_reg (initRegNamespace false toy ∅) "X86_64" "FUTURE1"
    = Some (PyLong 3)
  ∧ (("AH" = "FUTURE1")%string → PyLong 2 = PyLong 3)
  ∧ (PyLong 2 = PyLong 3 → ("AH" = "FUTURE1")%string).
Proof.
  split; [reflexivity|]. split; [reflexivity|].
  apply (namespace_injective false toy ∅ "X86_64" "AH" "FUTURE1"
           (PyLong 2) (PyLong 3) toy_ids_unique toy_ids_unsigned32);
    reflexivity.
Defined.

(** * Further properties of [initRegNamespace] *)

(** ** What a namespace depends on *)

Lemma elem_of_spec_names {M : Type} (spec : list (spec_line M)) (n : string) :
  n ∈ spec_names spec ↔ ∃ l, l ∈ spec ∧ UPPER_NAME l = n.
Proof.
  unfold spec_names. rewrite list_elem_of_fmap.
  split; intros (l & H1 & H2); eauto.
Qed.

Lemma same_lines_spec_names {M : Type} (spec spec' : list (spec_line M))
    (n : string) :
  same_lines spec spec' → n ∈ spec_names spec ↔ n ∈ spec_names spec'.
Proof.
  intros Hsame. rewrite !elem_of_spec_names.
  split; intros (l & Hin & Hn); exists l; split; try done; by apply Hsame.
Qed.

Lemma same_lines_x86_names (spec spec' : list x86_line) (n : string) :
  same_lines spec spec' → n ∈ x86_names spec ↔ n ∈ x86_names spec'.
Proof.
  intros Hsame. rewrite !elem_of_x86_names.
  split; intros (l & Hin & Hn); exists l; split; try done; by apply Hsame.
Qed.

Lemma same_lines_x86_avail_names (spec spec' : list x86_line) (n : string) :
  same_lines spec spec' →
  n ∈ x86_avail_names spec ↔ n ∈ x86_avail_names spec'.
Proof.
  intros Hsame. rewrite !elem_of_x86_avail_names.
  split; intros (l & Hin & Hn); exists l; split; try done; by apply Hsame.
Qed.

Section SameLines.
Variables h h' : headers.

Lemma include_x86_same_lines (d : PyDict) :
  same_lines (x86_spec h) (x86_spec h') →
  (∀ n, register_e h ID_REG_X86 n = register_e h' ID_REG_X86 n) →
  include x86_macro (reg_defs (X86_REG_SPEC h)) (x86_spec h) d
  = include x86_macro (reg_defs (X86_REG_SPEC h')) (x86_spec h') d.
Proof.
  intros Hsame Hreg. apply map_eq. intros k.
  rewrite !lookup_include_x86, Hreg.
  by apply decide_ext, same_lines_x86_avail_names.
Qed.

Lemma include_x86_64_same_lines (d : PyDict) :
  same_lines (x86_spec h) (x86_spec h') →
  (∀ n, register_e h ID_REG_X86 n = register_e h' ID_REG_X86 n) →
  include x86_macro (reg_defs (X86_64_REG_SPEC h)) (x86_spec h) d
  = include x86_macro (reg_defs (X86_64_REG_SPEC h')) (x86_spec h') d.
Proof.
  intros Hsame Hreg. apply map_eq. intros k.
  rewrite !lookup_include_x86_64, Hreg.
  by apply decide_ext, same_lines_x86_names.
Qed.

Lemma include_reg_same_lines (p : id_prefix)
    (spec spec' : list (spec_line reg_macro)) (d : PyDict) :
  same_lines spec spec' →
  (∀ n, register_e h p n = register_e h' p n) →
  include line_macro (reg_defs (ARCH_REG_SPEC h p)) spec d
  = include line_macro (reg_defs (ARCH_REG_SPEC h' p)) spec' d.
Proof.
  intros Hsame Hreg. apply map_eq. intros k.
  rewrite !lookup_include_reg, Hreg.
  by apply decide_ext, same_lines_spec_names.
Qed.

Lemma include_sys_same_lines (p : id_prefix)
    (spec spec' : list (spec_line macro)) (d : PyDict) :
  same_lines spec spec' →
  (∀ n, register_e h p n = register_e h' p n) →
  include line_macro (sys_defs (ARCH_REG_SPEC h p)) spec d
  = include line_macro (sys_defs (ARCH_REG_SPEC h' p)) spec' d.
Proof.
  intros Hsame Hreg. apply map_eq. intros k.
  rewrite !lookup_include_sys, Hreg.
  by apply decide_ext, same_lines_spec_names.
Qed.
End SameLines.

Lemma same_lines_refl {L : Type} (spec : list L) : same_lines spec spec.
Proof. by intros l. Qed.

(** A table that stores one value per selected line holds at most as
    many names as it has selected lines. *)
Lemma size_foldl_select {L : Type} (value : string → PyObject)
    (step : PyDict → L → PyDict) (sel : L → option string) (spec : list L)
    (d : PyDict) :
  (∀ d l, step d l = match sel l with
                     | Some n => <[n := value n]> d
                     | None => d
                     end) →
  (size (foldl step d spec) ≤ size d + length (omap sel spec))%nat.
Proof.
  intros Hstep. revert d.
  induction spec as [|l spec IH]; intros d.
  - cbn [foldl omap list_omap length]. lia.
  - cbn [foldl omap list_omap]. specialize (IH (step d l)).
    rewrite Hstep in IH |- *. destruct (sel l) as [n|]; [|done].
    cbn [length]. rewrite map_size_insert in IH.
    destruct (d !! n); unfold id in IH; lia.
Qed.

Lemma include_fmap {L M : Type} (macro_of : L → M)
    (defs : M → PyDict → L → PyDict) (g : L → L) (spec : list L)
    (d : PyDict) :
  (∀ d l, defs (macro_of (g l)) d (g l) = defs (macro_of l) d l) →
  include macro_of defs (g <$> spec) d = include macro_of defs spec d.
Proof.
  intros Hg. unfold include. revert d.
  induction spec as [|l spec IH]; intros d; [done|].
  rewrite fmap_cons. cbn [foldl]. by rewrite IH, Hg.
Qed.

Lemma dom_include_reg (h : headers) (p : id_prefix)
    (spec : list (spec_line reg_macro)) :
  dom (include line_macro (reg_defs (ARCH_REG_SPEC h p)) spec ∅)
  = (list_to_set (spec_names spec) : gset string).
Proof.
  apply set_eq. intros k.
  rewrite elem_of_dom, lookup_include_reg, lookup_empty, elem_of_list_to_set.
  case_decide; split; intros Hk; done.
Qed.

Lemma dom_include_sys (h : headers) (p : id_prefix)
    (spec : list (spec_line macro)) :
  dom (include line_macro (sys_defs (ARCH_REG_SPEC h p)) spec ∅)
  = (list_to_set (spec_names spec) : gset string).
Proof.
  apply set_eq. intros k.
  rewrite elem_of_dom, lookup_include_sys, lookup_empty, elem_of_list_to_set.
  case_decide; split; intros Hk; done.
Qed.

Lemma toy_shuffled_same_lines :
  same_lines (x86_spec toy) (x86_spec toy_shuffled)
  ∧ same_lines (aarch64_spec toy) (aarch64_spec toy_shuffled)
  ∧ same_lines (arm32_spec toy) (arm32_spec toy_shuffled)
  ∧ same_lines (riscv64_spec toy) (riscv64_spec toy_shuffled)
  ∧ same_lines (riscv32_spec toy) (riscv32_spec toy_shuffled).
Proof.
  split_and!; intros l;
    cbv [toy toy_shuffled toy_x86_spec x86_spec aarch64_spec arm32_spec
         riscv64_spec riscv32_spec];
    rewrite !elem_of_cons, !elem_of_nil; tauto.
Qed.

(** ** Further theorems *)

(** X1: every line of [aarch64.spec] and of [arm32.spec] (and of the two
    RISC-V tables when they are compiled in), whatever macro invokes it,
    is stored under its name with the enumerator of that name, and the
    namespace has no other key. *)
Theorem arch_tables_published (COMPILE_RISCV : bool) (h : headers)
    (d : PyDict) :
  let R := initRegNamespace COMPILE_RISCV h d in
  (∃ ns, namespace_of R "AARCH64" = Some ns
         ∧ holds_table h ID_REG_AARCH64 (aarch64_spec h) ns)
  ∧ (∃ ns, namespace_of R "ARM32" = Some ns
           ∧ holds_table h ID_REG_ARM32 (arm32_spec h) ns)
  ∧ (COMPILE_RISCV = true →
     (∃ ns, namespace_of R "RV64" = Some ns
            ∧ holds_table h ID_REG_RV64 (riscv64_spec h) ns)
     ∧ (∃ ns, namespace_of R "RV32" = Some ns
              ∧ holds_table h ID_REG_RV32 (riscv32_spec h) ns)).
Proof.
  cbv zeta. split_and!.
  - eexists. split; [apply namespace_of_AARCH64|]. split.
    + apply dom_include_sys.
    + intros l Hin. rewrite lookup_include_sys.
      rewrite decide_True; [done|]. by apply list_elem_of_fmap_2.
  - eexists. split; [apply namespace_of_ARM32|]. split.
    + apply dom_include_reg.
    + intros l Hin. rewrite lookup_include_reg.
      rewrite decide_True; [done|]. by apply list_elem_of_fmap_2.
  - intros ->. split.
    + eexists. split; [apply (namespace_of_RV64 true)|]. split.
      * apply dom_include_sys.
      * intros l Hin. rewrite lookup_include_sys.
        rewrite decide_True; [done|]. by apply list_elem_of_fmap_2.
    + eexists. split; [apply (namespace_of_RV32 true)|]. split.
      * apply dom_include_sys.
      * intros l Hin. rewrite lookup_include_sys.
        rewrite decide_True; [done|]. by apply list_elem_of_fmap_2.
Qed.

(** X2: a line invoked through [REG_SPEC_NO_CAPSTONE] is published like
    one invoked through [REG_SPEC]: writing every such line with
    [REG_SPEC], in all five tables, leaves the published dictionary as it
    is. *)
Theorem no_capstone_as_normal_register (COMPILE_RISCV : bool) (h : headers)
    (d : PyDict) :
  initRegNamespace COMPILE_RISCV (without_no_capstone h) d
  = initRegNamespace COMPILE_RISCV h d.
Proof.
  unfold initRegNamespace, without_no_capstone.
  cbn [x86_spec aarch64_spec arm32_spec riscv64_spec riscv32_spec].
  rewrite !(include_fmap x86_macro _ x86_as_capstone)
    by (by intros d' [[] n a]).
  rewrite !(include_fmap line_macro _ sys_as_capstone)
    by (by intros d' [[[]|] n]).
  rewrite !(include_fmap line_macro _ reg_as_capstone)
    by (by intros d' [[] n]).
  reflexivity.
Qed.

(** X3: the published dictionary depends on which lines the tables have,
    not on their order nor on how often a line is written: two sets of
    headers with the same lines in each table and the same enumerators
    publish the same dictionary. *)
Theorem table_order_irrelevant (COMPILE_RISCV : bool) (h h' : headers)
    (d d' : PyDict) :
  same_lines (x86_spec h) (x86_spec h') →
  same_lines (aarch64_spec h) (aarch64_spec h') →
  same_lines (arm32_spec h) (arm32_spec h') →
  same_lines (riscv64_spec h) (riscv64_spec h') →
  same_lines (riscv32_spec h) (riscv32_spec h') →
  (∀ p n, register_e h p n = register_e h' p n) →
  initRegNamespace COMPILE_RISCV h d = initRegNamespace COMPILE_RISCV h' d'.
Proof.
  intros Hx86 Ha64 Harm H64 H32 Hreg. unfold_init.
  rewrite (include_x86_same_lines h h' ∅ Hx86 (Hreg ID_REG_X86)).
  rewrite (include_x86_64_same_lines h h' ∅ Hx86 (Hreg ID_REG_X86)).
  rewrite (include_sys_same_lines h h' _ _ _ ∅ Ha64 (Hreg ID_REG_AARCH64)).
  rewrite (include_reg_same_lines h h' _ _ _ ∅ Harm (Hreg ID_REG_ARM32)).
  rewrite (include_sys_same_lines h h' _ _ _ ∅ H64 (Hreg ID_REG_RV64)).
  rewrite (include_sys_same_lines h h' _ _ _ ∅ H32 (Hreg ID_REG_RV32)).
  reflexivity.
Qed.

Lemma table_order_irrelevant_toy :
  initRegNamespace true toy ∅
  = initRegNamespace true toy_shuffled {[ "JUNK"%string := PyLong 7 ]}.
Proof.
  destruct toy_shuffled_same_lines as (Hx86 & Ha64 & Harm & H64 & H32).
  apply (table_order_irrelevant true toy toy_shuffled); try done.
Defined.

(** X4: whatever is stored at the top level is a class without bases
    whose name is the key it is stored under, and whose attribute
    dictionary is the namespace of that key. *)
Theorem published_values_are_classes (COMPILE_RISCV : bool) (h : headers)
    (d : PyDict) (label : string) (o : PyObject) :
  initRegNamespace COMPILE_RISCV h d !! label = Some o →
  ∃ ns, o = PyClass None ns (PyString label)
        ∧ namespace_of (initRegNamespace COMPILE_RISCV h d) label = Some ns.
Proof.
  intros Ho.
  assert (Hclass : ∃ ns, o = PyClass None ns (PyString label)).
  { revert Ho.
    destruct (decide (label ∈
      ["X86"; "X86_64"; "AARCH64"; "ARM32"; "RV64"; "RV32"]%string))
      as [Hin|Hout].
    - repeat (apply elem_of_cons in Hin as [->|Hin]);
        [ .. | by apply elem_of_nil in Hin ];
        unfold_init; destruct COMPILE_RISCV; read_key;
        intros [= <-]; eauto.
    - by rewrite namespace_of_other. }
  destruct Hclass as [ns ->]. exists ns. split; [done|].
  unfold namespace_of. by rewrite Ho.
Qed.

Lemma published_values_are_classes_toy :
  ∃ ns, PyClass None {[ "R0"%string := PyLong 1; "PC"%string := PyLong 2 ]}
          (PyString "ARM32")
        = PyClass None ns (PyString "ARM32")
        ∧ namespace_of (initRegNamespace false toy ∅) "ARM32" = Some ns.
Proof.
  apply (published_values_are_classes false toy ∅ "ARM32").
  reflexivity.
Defined.

(** X5: a name is in the X86 namespace exactly when some line of
    [x86.spec] with that name has [X86_AVAIL] true, also when the name is
    written on several lines; and when no line has [X86_AVAIL] true the
    X86 class is published all the same, with no attribute. *)
Theorem x86_published_iff (COMPILE_RISCV : bool) (h : headers) (d : PyDict) :
  let R := initRegNamespace COMPILE_RISCV h d in
  (∀ n, is_Some (lookup_reg R "X86" n)
        ↔ ∃ l, l ∈ x86_spec h ∧ x86_UPPER_NAME l = n ∧ X86_AVAIL l = true)
  ∧ (namespace_of R "X86" = Some ∅
     ↔ ∀ l, l ∈ x86_spec h → X86_AVAIL l = false).
Proof.
  cbv zeta. split.
  - intros n. rewrite lookup_reg_X86, <- elem_of_x86_avail_names.
    case_decide; split; intros Hn; done.
  - rewrite namespace_of_X86. split.
    + intros [= Hempty] l Hin. destruct (X86_AVAIL l) eqn:Hav; [|done].
      assert (Hl : include x86_macro (reg_defs (X86_REG_SPEC h)) (x86_spec h)
                     ∅ !! x86_UPPER_NAME l = None)
        by (by rewrite Hempty, lookup_empty).
      rewrite lookup_include_x86 in Hl.
      rewrite decide_True in Hl; [done|].
      apply elem_of_x86_avail_names. eauto.
    + intros Hnone. f_equal. apply map_eq. intros k.
      rewrite lookup_include_x86, lookup_empty.
      rewrite decide_False; [done|].
      intros (l & Hin & _ & Hav)%elem_of_x86_avail_names.
      by rewrite (Hnone l Hin) in Hav.
Qed.

Lemma x86_published_iff_toy :
  is_Some (lookup_reg (initRegNamespace false toy ∅) "X86" "AH")
  ∧ namespace_of
      (initRegNamespace false (with_x86_avail (λ _, false) toy) ∅) "X86"
    = Some ∅.
Proof.
  split.
  - apply (x86_published_iff false toy ∅).
    exists (X86Line REG_SPEC "AH" true). split_and!; [|done..].
    apply list_elem_of_further, list_elem_of_here.
  - apply (x86_published_iff false (with_x86_avail (λ _, false) toy) ∅).
    intros l Hin.
    repeat (apply elem_of_cons in Hin as [->|Hin]; [done|]).
    by apply elem_of_nil in Hin.
Defined.

Section Sizes.
Variable h : headers.

Lemma size_include_x86 :
  (size (include x86_macro (reg_defs (X86_REG_SPEC h)) (x86_spec h) ∅)
   ≤ length (filter (λ l, X86_AVAIL l = true) (x86_spec h)))%nat.
Proof.
  unfold include.
  etransitivity;
    [apply (size_foldl_select
              (λ n, PyLong_FromUint32 (register_e h ID_REG_X86 n)) _
              (λ l, if X86_AVAIL l then Some (x86_UPPER_NAME l) else None));
     by intros d' [[] n []]|].
  rewrite omap_avail, map_size_empty. unfold x86_avail_names.
  by rewrite length_fmap.
Qed.

Lemma size_include_x86_64 :
  (size (include x86_macro (reg_defs (X86_64_REG_SPEC h)) (x86_spec h) ∅)
   ≤ length (x86_spec h))%nat.
Proof.
  unfold include.
  etransitivity;
    [apply (size_foldl_select
              (λ n, PyLong_FromUint32 (register_e h ID_REG_X86 n)) _
              (λ l, Some (x86_UPPER_NAME l)));
     by intros d' [[] n a]|].
  by rewrite omap_Some_fmap, map_size_empty, length_fmap.
Qed.

Lemma size_include_reg (p : id_prefix) (spec : list (spec_line reg_macro)) :
  (size (include line_macro (reg_defs (ARCH_REG_SPEC h p)) spec ∅)
   ≤ length spec)%nat.
Proof.
  unfold include.
  etransitivity;
    [apply (size_foldl_select
              (λ n, PyLong_FromUint32 (register_e h p n)) _
              (λ l, Some (UPPER_NAME l)));
     by intros d' [[] n]|].
  by rewrite omap_Some_fmap, map_size_empty, length_fmap.
Qed.

Lemma size_include_sys (p : id_prefix) (spec : list (spec_line macro)) :
  (size (include line_macro (sys_defs (ARCH_REG_SPEC h p)) spec ∅)
   ≤ length spec)%nat.
Proof.
  unfold include.
  etransitivity;
    [apply (size_foldl_select
              (λ n, PyLong_FromUint32 (register_e h p n)) _
              (λ l, Some (UPPER_NAME l)));
     by intros d' [[[]|] n]|].
  by rewrite omap_Some_fmap, map_size_empty, length_fmap.
Qed.
End Sizes.

(** X6: no namespace has more names than its table has lines: the X86
    namespace has at most as many as [x86.spec] has lines with
    [X86_AVAIL] true and at most as many as the X86_64 namespace, which
    has at most as many as [x86.spec] has lines; the AArch64 and ARM32
    namespaces have at most as many as their tables have lines. *)
Theorem namespace_sizes (COMPILE_RISCV : bool) (h : headers) (d : PyDict) :
  let R := initRegNamespace COMPILE_RISCV h d in
  ∃ x86 x8664 aarch64 arm32 : PyDict,
    namespace_of R "X86" = Some x86
    ∧ namespace_of R "X86_64" = Some x8664
    ∧ namespace_of R "AARCH64" = Some aarch64
    ∧ namespace_of R "ARM32" = Some arm32
    ∧ (size x86 ≤ length (filter (λ l, X86_AVAIL l = true) (x86_spec h)))%nat
    ∧ (size x86 ≤ size x8664)%nat
    ∧ (size x8664 ≤ length (x86_spec h))%nat
    ∧ (size aarch64 ≤ length (aarch64_spec h))%nat
    ∧ (size arm32 ≤ length (arm32_spec h))%nat.
Proof.
  cbv zeta. do 4 eexists.
  split; [apply namespace_of_X86|].
  split; [apply namespace_of_X86_64|].
  split; [apply namespace_of_AARCH64|].
  split; [apply namespace_of_ARM32|].
  split_and!.
  - apply size_include_x86.
  - apply map_subseteq_size, map_subseteq_spec. intros k v.
    rewrite lookup_include_x86, lookup_include_x86_64, !lookup_empty.
    case_decide as Hav; [|done]. intros [= <-].
    by rewrite decide_True by by apply x86_avail_names_declared.
  - apply size_include_x86_64.
  - apply size_include_sys.
  - apply size_include_reg.
Qed.

(** X7: a namespace depends on its own table and on the enumerators of
    its own prefix only: headers that agree on [x86.spec] and on the
    [ID_REG_X86] enumerators give the same X86 and X86_64 namespaces,
    whatever the other tables, [COMPILE_RISCV] and the prior content of
    the dictionary; likewise for AArch64 and ARM32. *)
Theorem namespace_frame (COMPILE_RISCV COMPILE_RISCV' : bool)
    (h h' : headers) (d d' : PyDict) :
  let R := initRegNamespace COMPILE_RISCV h d in
  let R' := initRegNamespace COMPILE_RISCV' h' d' in
  (x86_spec h = x86_spec h' →
   (∀ n, register_e h ID_REG_X86 n = register_e h' ID_REG_X86 n) →
   namespace_of R "X86" = namespace_of R' "X86"
   ∧ namespace_of R "X86_64" = namespace_of R' "X86_64")
  ∧ (aarch64_spec h = aarch64_spec h' →
     (∀ n, register_e h ID_REG_AARCH64 n = register_e h' ID_REG_AARCH64 n) →
     namespace_of R "AARCH64" = namespace_of R' "AARCH64")
  ∧ (arm32_spec h = arm32_spec h' →
     (∀ n, register_e h ID_REG_ARM32 n = register_e h' ID_REG_ARM32 n) →
     namespace_of R "ARM32" = namespace_of R' "ARM32").
Proof.
  cbv zeta. split_and!.
  - intros Hspec Hreg.
    rewrite !namespace_of_X86, !namespace_of_X86_64.
    split; f_equal.
    + apply include_x86_same_lines; [|done].
      rewrite Hspec. apply same_lines_refl.
    + apply include_x86_64_same_lines; [|done].
      rewrite Hspec. apply same_lines_refl.
  - intros Hspec Hreg. rewrite !namespace_of_AARCH64. f_equal.
    apply include_sys_same_lines; [|done].
    rewrite Hspec. apply same_lines_refl.
  - intros Hspec Hreg. rewrite !namespace_of_ARM32. f_equal.
    apply include_reg_same_lines; [|done].
    rewrite Hspec. apply same_lines_refl.
Qed.

Lemma namespace_frame_toy :
  namespace_of (initRegNamespace true toy ∅) "X86"
  = namespace_of
      (initRegNamespace false toy_x86_only {[ "JUNK"%string := PyLong 7 ]})
      "X86"
  ∧ namespace_of (initRegNamespace true toy ∅) "X86_64"
    = namespace_of
        (initRegNamespace false toy_x86_only {[ "JUNK"%string := PyLong 7 ]})
        "X86_64".
Proof.
  apply (namespace_frame true false toy toy_x86_only ∅
           {[ "JUNK"%string := PyLong 7 ]}).
  - reflexivity.
  - intros n. reflexivity.
Defined.
